(** * UserManagementAddon (src/addons/user-management.ts)

    A shallow embedding of the addon's option merging, of the three class
    factories ([createSessionResource], [createUserProcessor],
    [createSessionProcessor]) and of [install], followed by the properties
    the specification states about them. *)

From stdpp Require Import base option strings gmap list.

Open Scope string_scope.

(** ** Values, completions and the console *)

(** The JavaScript data values that flow through the addon: request
    operations, resource attributes and callback results. *)
#[warnings="-register-all"]
Inductive jsval : Type :=
| VUndefined
| VNull
| VBool (b : bool)
| VStr (s : string)
| VArr (items : list jsval)
| VObj (fields : list (string * jsval)).

(** What a [throw] carries: the engine's own [TypeError] (calling or
    dereferencing [undefined]) or any value a callback chooses to throw. *)
Inductive thrown : Type :=
| TypeError
| Raised (v : jsval).

(** How an evaluation ends.  For an [async] function [Returns v] is a promise
    fulfilled with [v] and [Throws e] a promise rejected with [e]: an
    exception raised in the body of an [async] function rejects its promise. *)
Inductive completion (A : Type) : Type :=
| Returns (a : A)
| Throws (e : thrown).
Arguments Returns {A} a.
Arguments Throws {A} e.

(** The lines written by [console.warn], oldest first. *)
Definition console : Type := list string.

(** Effectful code: it may write to the console and may throw. *)
Definition M (A : Type) : Type := console → completion A * console.

Definition ret {A} (a : A) : M A := λ w, (Returns a, w).

Definition throw {A} (e : thrown) : M A := λ w, (Throws e, w).

Definition bind {A B} (m : M A) (k : A → M B) : M B :=
  λ w, match m w with
       | (Returns a, w') => k a w'
       | (Throws e, w') => (Throws e, w')
       end.

Definition console_warn (line : string) : M unit := λ w, (Returns (), (w ++ [line])%list).

Notation "'let*' x := m 'in' k" := (bind m (λ x, k))
  (at level 10, x name, m at level 100, k at level 200).
Notation "'do' m 'in' k" := (bind m (λ _, k))
  (at level 10, m at level 100, k at level 200).

(** The value [this] is bound to when a function runs.  The addon calls its
    callbacks either re-bound to a processor instance ([f.bind(this)(..)]) or
    as a member of the merged options object ([options.f(..)]). *)
Inductive receiver : Type :=
| ThisUndefined
| ThisOptions
| ThisInstance (self : jsval).

(** A function value: applied to a receiver and an argument list.  An arrow
    function is one that ignores its receiver. *)
Definition jsfun : Type := receiver → list jsval → M jsval.

(** [f(args)] where [f] may be [undefined]: calling (or [.bind]-ing)
    [undefined] throws a [TypeError]. *)
Definition call (f : option jsfun) (this : receiver) (args : list jsval) : M jsval :=
  match f with
  | Some g => g this args
  | None => throw TypeError
  end.

(** The [i]-th actual argument, [undefined] when the caller passed fewer. *)
Definition arg (i : nat) (args : list jsval) : jsval := default VUndefined (args !! i).

Fixpoint assoc (k : string) (fields : list (string * jsval)) : option jsval :=
  match fields with
  | [] => None
  | (k', v) :: rest => if decide (k = k') then Some v else assoc k rest
  end.

(** Property read [v.k].  Reading a property of [undefined] or [null] throws;
    a missing property reads as [undefined].  The addon only reads the names
    [data], [attributes] and [password], which no array or primitive wrapper
    defines. *)
Definition get_prop (v : jsval) (k : string) : M jsval :=
  match v with
  | VUndefined | VNull => throw TypeError
  | VObj fields => ret (default VUndefined (assoc k fields))
  | VBool _ | VStr _ | VArr _ => ret VUndefined
  end.

(** ** Values that may be missing *)

(** A value of a declared type [A] as the code can receive it.  The module
    reads possibly-undefined options without a check, so it is compiled
    without strict null checks and [undefined] and [null] inhabit every
    option type. *)
Inductive nullable (A : Type) : Type :=
| Undefined
| Null
| Val (a : A).
Arguments Undefined {A}.
Arguments Null {A}.
Arguments Val {A} a.

(** The proper value, when there is one. *)
Definition value_of {A} (v : nullable A) : option A :=
  match v with
  | Val a => Some a
  | Undefined | Null => None
  end.

(** A key of an object is absent ([None]) or present with a value, which may
    itself be [undefined] or [null].  Reading [o.k] gives [undefined] for an
    absent key. *)
Definition read_key {A} (key : option (nullable A)) : nullable A := default Undefined key.

(** [o.k] when it is a proper value: [None] when the key is absent or holds
    [undefined] or [null]. *)
Definition held {A} (key : option (nullable A)) : option A := value_of (read_key key).

(** ** Resource and processor classes *)

(** Attribute types used in the session schema: the global [String]
    constructor and the imported [Password] attribute type. *)
Inductive AttributeType : Type :=
| JsString
| Password.

Record Relationship (R : Type) : Type := {
  rel_type : unit → nullable R;
  belongsTo : bool
}.
Arguments rel_type {R} _ _.
Arguments belongsTo {R} _.

Record Schema (R : Type) : Type := {
  attributes : gmap string AttributeType;
  relationships : gmap string (Relationship R)
}.
Arguments attributes {R} _.
Arguments relationships {R} _.

(** Modelled from the spec: the classes of ../resource and ../resources/user
    are imported, not defined here.  A resource class is the built-in [User],
    some other class the deployer declared (known by its name), or a class
    this addon synthesizes, which carries its [type] and its static
    [schema]. *)
#[warnings="-register-all"]
Inductive ResourceClass : Type :=
| User
| DeclaredResource (name : string)
| Synthesized (type : string) (schema : Schema ResourceClass).

(** Modelled from the spec: ../processors/user-processor and
    ../processors/session-processor are imported.  A processor class is one of
    the two built-in ones or a class declaration: its name, the class it
    extends (if any), its static [resourceClass] and the methods it defines
    itself. *)
#[warnings="-register-all"]
Inductive ProcessorClass : Type :=
| JsonApiUserProcessor
| JsonApiSessionProcessor
| ClassDecl (name : string) (super : option ProcessorClass)
            (resourceClass : nullable ResourceClass) (methods : gmap string jsfun).

(** What a property of a class's prototype holds: a method, or, under the
    name [constructor], the class. *)
Inductive member : Type :=
| Method (f : jsfun)
| Class (c : ProcessorClass).

(** A prototype member as something to call.  A class cannot be called
    without [new]: calling it throws a TypeError, like calling [undefined]. *)
Definition method (m : option member) : option jsfun :=
  match m with
  | Some (Method f) => Some f
  | Some (Class _) | None => None
  end.

(** [c === JsonApiUserProcessor]: class identity.  Every class declaration is
    an object of its own, distinct from the built-in class. *)
Definition is_JsonApiUserProcessor (c : ProcessorClass) : bool :=
  match c with
  | JsonApiUserProcessor => true
  | _ => false
  end.

(** ** Options and their defaults *)

(** [UserManagementAddonOptions] as an object: each key is absent ([None])
    or present, and a present key holds a value of its declared type or
    [undefined] or [null]. *)
Record UserManagementAddonOptions : Type := {
  userResource : option (nullable ResourceClass);
  userProcessor : option (nullable ProcessorClass);
  userEncryptPasswordCallback : option (nullable jsfun);
  userLoginCallback : option (nullable jsfun);
  userGenerateIdCallback : option (nullable jsfun);
  userRolesProvider : option (nullable jsfun);
  userPermissionsProvider : option (nullable jsfun);
  usernameRequestParameter : option (nullable string);
  passwordRequestParameter : option (nullable string)
}.

Definition login_warning : string :=
  "WARNING: You're using the default login callback with UserManagementAddon." ++
  "ANY LOGIN REQUEST WILL PASS. Implement this callback in your addon configuration.".

Definition encryptPassword_warning : string :=
  "WARNING: You're using the default encryptPassword callback with UserManagementAddon." ++
  "Your password is NOT being encrypted. Implement this callback in your addon configuration.".

Definition default_provider : jsfun := λ _ _, ret (VArr []).

Definition default_userLoginCallback : jsfun :=
  λ _ _, do console_warn login_warning in ret (VBool true).

Definition default_userEncryptPasswordCallback : jsfun :=
  λ _ args,
    let op := arg 0 args in
    do console_warn encryptPassword_warning in
    let* data := get_prop op "data" in
    let* attrs := get_prop data "attributes" in
    let* password := get_prop attrs "password" in
    ret (VObj [("password", password)]).

Definition defaults : UserManagementAddonOptions := {|
  userResource := Some (Val User);
  userProcessor := Some (Val JsonApiUserProcessor);
  userEncryptPasswordCallback := Some (Val default_userEncryptPasswordCallback);
  userLoginCallback := Some (Val default_userLoginCallback);
  userGenerateIdCallback := None;
  userRolesProvider := Some (Val default_provider);
  userPermissionsProvider := Some (Val default_provider);
  usernameRequestParameter := Some (Val "username");
  passwordRequestParameter := Some (Val "password")
|}.

(** An options object with no key at all: [{}]. *)
Definition no_options : UserManagementAddonOptions := {|
  userResource := None;
  userProcessor := None;
  userEncryptPasswordCallback := None;
  userLoginCallback := None;
  userGenerateIdCallback := None;
  userRolesProvider := None;
  userPermissionsProvider := None;
  usernameRequestParameter := None;
  passwordRequestParameter := None
|}.

(** Object spread [{ ...base, ...over }]: every key present in [over]
    replaces the key of [base] as a whole, whatever it holds ([undefined] and
    [null] included); keys [over] lacks keep the value of [base]. *)
Definition spread (base over : UserManagementAddonOptions) : UserManagementAddonOptions := {|
  userResource := userResource over ∪ userResource base;
  userProcessor := userProcessor over ∪ userProcessor base;
  userEncryptPasswordCallback := userEncryptPasswordCallback over ∪ userEncryptPasswordCallback base;
  userLoginCallback := userLoginCallback over ∪ userLoginCallback base;
  userGenerateIdCallback := userGenerateIdCallback over ∪ userGenerateIdCallback base;
  userRolesProvider := userRolesProvider over ∪ userRolesProvider base;
  userPermissionsProvider := userPermissionsProvider over ∪ userPermissionsProvider base;
  usernameRequestParameter := usernameRequestParameter over ∪ usernameRequestParameter base;
  passwordRequestParameter := passwordRequestParameter over ∪ passwordRequestParameter base
|}.

(** The constructor: [this.options = { ...defaults, ...options }], where the
    [options] argument itself is optional ([None]: spreading [undefined] or
    [null] adds no key). *)
Definition constructor (options : option UserManagementAddonOptions) : UserManagementAddonOptions :=
  spread defaults (default no_options options).

(** ** The addon *)

(** Modelled from the spec: ../application is imported.  Of the host
    application the addon touches the named-service registry and the two
    registries of entity types and of processors, both arrays it appends
    to. *)
Record Application : Type := {
  services : gmap string (nullable jsfun);
  types : list (nullable ResourceClass);
  processors : list ProcessorClass
}.

(** The key a computed property name [[k]: ..] denotes: the string itself,
    and the strings ["undefined"] and ["null"] for these two values. *)
Definition property_key (k : nullable string) : string :=
  match k with
  | Val s => s
  | Undefined => "undefined"
  | Null => "null"
  end.

(** [app.services.<k> = f] *)
Definition set_service (k : string) (f : nullable jsfun) (app : Application) : Application :=
  {| services := <[k := f]> (services app);
     types := types app;
     processors := processors app |}.

(** [app.types.push(a, b)] *)
Definition push_types (a b : nullable ResourceClass) (app : Application) : Application :=
  {| services := services app;
     types := types app ++ [a; b];
     processors := processors app |}.

(** [app.processors.push(a, b)] *)
Definition push_processors (a b : ProcessorClass) (app : Application) : Application :=
  {| services := services app;
     types := types app;
     processors := processors app ++ [a; b] |}.

Section Addon.

(** The methods the two imported processor classes define; their code is
    not part of this module. *)
Variable JsonApiUserProcessor_prototype : gmap string jsfun.
Variable JsonApiSessionProcessor_prototype : gmap string jsfun.

(** [c.prototype[k]]: under [constructor] the class [c] itself; otherwise
    the method [k] of [c], its own or else the one it inherits.  [None] is
    [undefined]. *)
Fixpoint prototype (c : ProcessorClass) (k : string) : option member :=
  if decide (k = "constructor") then Some (Class c) else
  match c with
  | JsonApiUserProcessor => Method <$> JsonApiUserProcessor_prototype !! k
  | JsonApiSessionProcessor => Method <$> JsonApiSessionProcessor_prototype !! k
  | ClassDecl _ super _ methods =>
      match methods !! k with
      | Some f => Some (Method f)
      | None =>
          match super with
          | Some parent => prototype parent k
          | None => None
          end
      end
  end.

(** The host framework calling method [k] of an instance of class [c]. *)
Definition invoke (c : ProcessorClass) (k : string) (this : receiver) (args : list jsval) : M jsval :=
  call (method (prototype c k)) this args.

Definition createSessionResource (options : UserManagementAddonOptions) : ResourceClass :=
  Synthesized "session" {|
    attributes :=
      <[property_key (read_key (passwordRequestParameter options)) := Password]>
        (<[property_key (read_key (usernameRequestParameter options)) := JsString]>
           (<["token" := JsString]> ∅));
    relationships :=
      {[ "user" := {| rel_type := λ _, read_key (userResource options); belongsTo := true |} ]}
  |}.

Definition createUserProcessor (options : UserManagementAddonOptions) : completion ProcessorClass :=
  let generateIdCallback : option jsfun := Some (λ _ _, ret VUndefined) in
  let encryptPasswordCallback : option jsfun := Some (λ _ _, ret (VObj [])) in
  match read_key (userProcessor options) with
  | Undefined | Null => Throws TypeError
  | Val userProcessor =>
      let '(generateIdCallback, encryptPasswordCallback) :=
        if is_JsonApiUserProcessor userProcessor
        then (held (userGenerateIdCallback options) ∪ generateIdCallback,
              held (userEncryptPasswordCallback options))
        else (method (prototype userProcessor "generateId"),
              method (prototype userProcessor "encryptPassword")) in
      Returns
        (ClassDecl "UserProcessor" (Some userProcessor) (read_key (userResource options))
           {[ "generateId" := (λ this _, call generateIdCallback this []) : jsfun;
              "encryptPassword" :=
                (λ this args, call encryptPasswordCallback this [arg 0 args]) : jsfun ]})
  end.

Definition createSessionProcessor (options : UserManagementAddonOptions)
    (sessionResourceType : ResourceClass) : ProcessorClass :=
  ClassDecl "SessionProcessor" (Some JsonApiSessionProcessor) (Val sessionResourceType)
    {[ "login" :=
         (λ _ args,
            call (held (userLoginCallback options)) ThisOptions [arg 0 args; arg 1 args])
         : jsfun ]}.

(** [install()], run on the application it was constructed with.  The
    arguments of [push] are evaluated before the call: when composing the
    user processor throws, nothing is pushed to [app.processors]. *)
Definition install (options : UserManagementAddonOptions) (app : Application)
    : completion unit * Application :=
  let sessionResourceType := createSessionResource options in
  let app := set_service "roles" (read_key (userRolesProvider options)) app in
  let app := set_service "permissions" (read_key (userPermissionsProvider options)) app in
  let app := push_types (read_key (userResource options)) (Val sessionResourceType) app in
  match createUserProcessor options with
  | Throws e => (Throws e, app)
  | Returns userProcessorType =>
      (Returns (),
       push_processors userProcessorType
         (createSessionProcessor options sessionResourceType) app)
  end.

(** ** Reading an options object by key *)

(** The nine keys of [UserManagementAddonOptions]. *)
Inductive option_name : Type :=
| K_userResource
| K_userProcessor
| K_userEncryptPasswordCallback
| K_userLoginCallback
| K_userGenerateIdCallback
| K_userRolesProvider
| K_userPermissionsProvider
| K_usernameRequestParameter
| K_passwordRequestParameter.

(** What a key can hold. *)
Inductive option_value : Type :=
| ResourceValue (c : ResourceClass)
| ProcessorValue (c : ProcessorClass)
| FunctionValue (f : jsfun)
| StringValue (s : string).

Definition nullable_map {A B} (f : A → B) (v : nullable A) : nullable B :=
  match v with
  | Val a => Val (f a)
  | Undefined => Undefined
  | Null => Null
  end.

(** The own key [k] of an options object: [None] when the key is absent,
    otherwise what it holds. *)
Definition get_option (k : option_name) (options : UserManagementAddonOptions)
    : option (nullable option_value) :=
  match k with
  | K_userResource => nullable_map ResourceValue <$> userResource options
  | K_userProcessor => nullable_map ProcessorValue <$> userProcessor options
  | K_userEncryptPasswordCallback =>
      nullable_map FunctionValue <$> userEncryptPasswordCallback options
  | K_userLoginCallback => nullable_map FunctionValue <$> userLoginCallback options
  | K_userGenerateIdCallback => nullable_map FunctionValue <$> userGenerateIdCallback options
  | K_userRolesProvider => nullable_map FunctionValue <$> userRolesProvider options
  | K_userPermissionsProvider => nullable_map FunctionValue <$> userPermissionsProvider options
  | K_usernameRequestParameter => nullable_map StringValue <$> usernameRequestParameter options
  | K_passwordRequestParameter => nullable_map StringValue <$> passwordRequestParameter options
  end.

(** What the deployer supplied under key [k], if anything. *)
Definition supplied (k : option_name) (options : option UserManagementAddonOptions)
    : option (nullable option_value) :=
  options ≫= get_option k.

(** ** Running a processor *)

(** The call [f] made [n] times in a row, each awaited before the next; a
    rejection ends the sequence. *)
Fixpoint repeat_call (f : M jsval) (n : nat) : M unit :=
  match n with
  | 0 => ret ()
  | S n' => do f in repeat_call f n'
  end.

(** How often [line] was written to the console. *)
Definition occurrences (line : string) (w : console) : nat :=
  length (filter (λ l, l = line) w).

(** The static [schema] of a resource class, for the classes whose schema
    this module declares. *)
Definition schema_of (c : ResourceClass) : option (Schema ResourceClass) :=
  match c with
  | Synthesized _ schema => Some schema
  | User | DeclaredResource _ => None
  end.

(** The static [resourceClass] and the superclass of a class declaration. *)
Definition static_resourceClass (c : ProcessorClass) : option (nullable ResourceClass) :=
  match c with
  | ClassDecl _ _ resourceClass _ => Some resourceClass
  | JsonApiUserProcessor | JsonApiSessionProcessor => None
  end.

Definition superclass (c : ProcessorClass) : option ProcessorClass :=
  match c with
  | ClassDecl _ super _ _ => super
  | JsonApiUserProcessor | JsonApiSessionProcessor => None
  end.

(** ** Reading values without effects *)

(** [v == null]: the two values whose properties cannot be read. *)
Definition nullish (v : jsval) : bool :=
  match v with
  | VUndefined | VNull => true
  | _ => false
  end.

(** The value of [v.k] when reading it does not throw. *)
Definition read (v : jsval) (k : string) : jsval :=
  match v with
  | VObj fields => default VUndefined (assoc k fields)
  | _ => VUndefined
  end.

(** ** Sample configurations *)

(** An options object that sets the processor class, the three callbacks and
    the two parameter names as given, and omits every other key. *)
Definition options_with (processor : option (nullable ProcessorClass))
    (encryptPasswordCallback generateIdCallback loginCallback : option (nullable jsfun))
    (username password : option (nullable string)) : UserManagementAddonOptions := {|
  userResource := None;
  userProcessor := processor;
  userEncryptPasswordCallback := encryptPasswordCallback;
  userLoginCallback := loginCallback;
  userGenerateIdCallback := generateIdCallback;
  userRolesProvider := None;
  userPermissionsProvider := None;
  usernameRequestParameter := username;
  passwordRequestParameter := password
|}.

(** A request operation that creates a user. *)
Definition sample_operation : jsval :=
  VObj [("op", VStr "add");
        ("data", VObj [("type", VStr "user");
                       ("attributes", VObj [("username", VStr "ada");
                                            ("password", VStr "secret")])])].

(** The user attributes the host framework looked up for a login. *)
Definition sample_attributes : jsval :=
  VObj [("username", VStr "ada"); ("password", VStr "secret")].

Definition sample_instance : receiver := ThisInstance (VObj []).

Definition empty_application : Application :=
  {| services := ∅; types := []; processors := [] |}.

(** A custom user processor class with its own identity and password
    policy. *)
Definition uuid_generateId : jsfun := λ _ _, ret (VStr "4f1c").

Definition hashing_encryptPassword : jsfun :=
  λ _ args, ret (VObj [("password", VStr "hashed"); ("seen", arg 0 args)]).

Definition HashingUserProcessor : ProcessorClass :=
  ClassDecl "HashingUserProcessor" (Some JsonApiUserProcessor) Undefined
    {[ "generateId" := uuid_generateId; "encryptPassword" := hashing_encryptPassword ]}.

(** A class that is not a user processor at all: it extends nothing and
    defines no method. *)
Definition BareProcessor : ProcessorClass := ClassDecl "BareProcessor" None Undefined ∅.

(** Callbacks a deployer might pass. *)
Definition constant_callback (v : jsval) : jsfun := λ _ _, ret v.

(** A login callback that leaves a line on the console and hands back the
    arguments it was called with. *)
Definition recording_callback : jsfun :=
  λ _ args, do console_warn "login callback called" in ret (VArr args).

(** A subclass of the built-in user processor that adds a method of its own
    and overrides neither [generateId] nor [encryptPassword]. *)
Definition AuditedUserProcessor : ProcessorClass :=
  ClassDecl "AuditedUserProcessor" (Some JsonApiUserProcessor) Undefined
    {[ "audit" := constant_callback (VBool true) ]}.

(** Configurations used in the runs below. *)
Definition borrowing_options : UserManagementAddonOptions :=
  options_with (Some (Val HashingUserProcessor))
    (Some (Val (constant_callback (VObj []))))
    (Some (Val (constant_callback (VStr "ignored"))))
    None None None.

Definition bare_options : UserManagementAddonOptions :=
  options_with (Some (Val BareProcessor)) None None None None None.

Definition email_options : UserManagementAddonOptions :=
  options_with None None None None (Some (Val "email")) None.

Definition colliding_options : UserManagementAddonOptions :=
  options_with None None None None (Some (Val "secret")) (Some (Val "secret")).

Definition recording_options : UserManagementAddonOptions :=
  options_with None None None (Some (Val recording_callback)) None None.

Definition audited_options : UserManagementAddonOptions :=
  options_with (Some (Val AuditedUserProcessor))
    (Some (Val (constant_callback (VObj []))))
    (Some (Val (constant_callback (VStr "ignored"))))
    None None None.

(** The deployer passes both user-processor callbacks and keeps the built-in
    processor. *)
Definition callback_options : UserManagementAddonOptions :=
  options_with None (Some (Val hashing_encryptPassword)) (Some (Val uuid_generateId))
    None None None.

(** Options whose [userProcessor] key is present and holds [undefined]. *)
Definition undefined_processor_options : UserManagementAddonOptions :=
  options_with (Some Undefined) None None None None None.

(** Options whose [userLoginCallback] key is present and holds
    [undefined]. *)
Definition undefined_login_options : UserManagementAddonOptions :=
  options_with None None None (Some Undefined) None None.

(** An application that already has registrations of its own. *)
Definition busy_application : Application :=
  {| services := {[ "mailer" := Val (constant_callback VNull); "roles" := Undefined ]};
     types := [Val (DeclaredResource "article")];
     processors := [BareProcessor] |}.

(** * Properties *)

(** ** Option merging *)

Ltac by_cases_on_supplied options :=
  unfold constructor; destruct options as [[? ? ? ? ? ? ? ? ?]|]; cbn in *;
  repeat match goal with
         | H : ?x = _ |- _ => is_var x; subst x
         | |- context [?x ∪ _] => is_var x; destruct x
         end; cbn in *; try reflexivity; try discriminate.

Lemma constructor_userProcessor options :
  userProcessor (constructor options) =
  Some (default (Val JsonApiUserProcessor) (options ≫= userProcessor)).
Proof. by_cases_on_supplied options. Qed.

Lemma constructor_userLoginCallback options :
  userLoginCallback (constructor options) =
  Some (default (Val default_userLoginCallback) (options ≫= userLoginCallback)).
Proof. by_cases_on_supplied options. Qed.

Lemma constructor_userEncryptPasswordCallback options :
  userEncryptPasswordCallback (constructor options) =
  Some (default (Val default_userEncryptPasswordCallback)
          (options ≫= userEncryptPasswordCallback)).
Proof. by_cases_on_supplied options. Qed.

Lemma constructor_userGenerateIdCallback options :
  userGenerateIdCallback (constructor options) = options ≫= userGenerateIdCallback.
Proof. by_cases_on_supplied options. Qed.

Lemma constructor_userResource options :
  userResource (constructor options) = Some (default (Val User) (options ≫= userResource)).
Proof. by_cases_on_supplied options. Qed.

Lemma constructor_usernameRequestParameter options :
  usernameRequestParameter (constructor options) =
  Some (default (Val "username") (options ≫= usernameRequestParameter)).
Proof. by_cases_on_supplied options. Qed.

Lemma constructor_passwordRequestParameter options :
  passwordRequestParameter (constructor options) =
  Some (default (Val "password") (options ≫= passwordRequestParameter)).
Proof. by_cases_on_supplied options. Qed.

(** C5 (as amended): after construction every option key holds what the
    deployer supplied under it whenever the key was supplied, replaced as a
    whole and whatever the value ([undefined] and [null] included), and the
    built-in default otherwise; a key that has a default and that the
    deployer omitted holds a proper value. *)
Theorem constructor_overlays_defaults (options : option UserManagementAddonOptions)
    (k : option_name) :
  get_option k (constructor options) =
    match supplied k options with
    | Some v => Some v
    | None => get_option k defaults
    end
  ∧ (get_option k defaults = None
     ∨ is_Some (supplied k options)
     ∨ ∃ v, get_option k (constructor options) = Some (Val v)).
Proof.
  unfold supplied; destruct k; by_cases_on_supplied options;
    (split; [reflexivity |
             first [left; reflexivity
                   | right; left; eexists; reflexivity
                   | right; right; eexists; reflexivity]]).
Qed.

(** ** Prototype lookup *)

Lemma prototype_constructor c : prototype c "constructor" = Some (Class c).
Proof. destruct c; reflexivity. Qed.

Lemma prototype_ClassDecl name super resource methods k :
  k ≠ "constructor" →
  prototype (ClassDecl name super resource methods) k =
  match methods !! k with
  | Some f => Some (Method f)
  | None => match super with
            | Some parent => prototype parent k
            | None => None
            end
  end.
Proof.
  intros Hk. cbn [prototype]. destruct (decide (k = "constructor")); [contradiction |].
  reflexivity.
Qed.

(** ** The composed user processor *)

Lemma createUserProcessor_methods options up :
  read_key (userProcessor options) = Val up →
  ∃ cls,
    createUserProcessor options = Returns cls
    ∧ (∀ this args,
         invoke cls "generateId" this args =
         call (if is_JsonApiUserProcessor up
               then held (userGenerateIdCallback options)
                    ∪ Some ((λ _ _, ret VUndefined) : jsfun)
               else method (prototype up "generateId")) this [])
    ∧ (∀ this args,
         invoke cls "encryptPassword" this args =
         call (if is_JsonApiUserProcessor up
               then held (userEncryptPasswordCallback options)
               else method (prototype up "encryptPassword")) this [arg 0 args]).
Proof.
  intros Hup. unfold createUserProcessor. rewrite Hup.
  destruct (is_JsonApiUserProcessor up);
    (eexists; split; [reflexivity | split; intros this args; unfold invoke]);
    rewrite prototype_ClassDecl by discriminate.
  all: try (rewrite lookup_insert_eq; reflexivity).
  all: rewrite lookup_insert_ne by discriminate; rewrite lookup_singleton_eq; reflexivity.
Qed.

Lemma read_key_Some {A} (key : option (nullable A)) (v : nullable A) :
  key = Some v → read_key key = v.
Proof. intros ->. reflexivity. Qed.

Lemma default_userEncryptPasswordCallback_outcome this op w :
  snd (default_userEncryptPasswordCallback this [op] w) = (w ++ [encryptPassword_warning])%list
  ∧ (fst (default_userEncryptPasswordCallback this [op] w) = Throws TypeError
     ∨ ∃ password,
         fst (default_userEncryptPasswordCallback this [op] w)
         = Returns (VObj [("password", password)])).
Proof.
  unfold default_userEncryptPasswordCallback, bind, console_warn, arg; cbn.
  destruct op as [| | | | |fields]; cbn; try (split; [reflexivity | left; reflexivity]);
    try (split; [reflexivity | right; eexists; reflexivity]).
  destruct (default VUndefined (assoc "data" fields)) as [| | | | |dfields]; cbn;
    try (split; [reflexivity | left; reflexivity]);
    try (split; [reflexivity | right; eexists; reflexivity]).
  destruct (default VUndefined (assoc "attributes" dfields)) as [| | | | |afields]; cbn;
    try (split; [reflexivity | left; reflexivity]);
    try (split; [reflexivity | right; eexists; reflexivity]).
Qed.

Lemma default_userEncryptPasswordCallback_plaintext this fields dfields afields w :
  assoc "data" fields = Some (VObj dfields) →
  assoc "attributes" dfields = Some (VObj afields) →
  default_userEncryptPasswordCallback this [VObj fields] w
  = (Returns (VObj [("password", default VUndefined (assoc "password" afields))]),
     (w ++ [encryptPassword_warning])%list).
Proof.
  intros Hdata Hattrs.
  unfold default_userEncryptPasswordCallback, bind, console_warn, arg; cbn.
  rewrite Hdata; cbn. rewrite Hattrs; cbn. reflexivity.
Qed.

(** C1 (as amended): with [userProcessor] left at the built-in class and
    [userEncryptPasswordCallback] omitted, the composed processor's
    [encryptPassword] runs the default callback of the defaults table: it
    writes the unsafe-default warning and fulfils with the attribute set
    [{ password: op.data.attributes.password }] (or rejects with a TypeError
    when [op.data] or [op.data.attributes] is missing); it never fulfils with
    the empty attribute set. *)
Theorem encryptPassword_default_is_plaintext (options : option UserManagementAddonOptions) :
  userProcessor (constructor options) = Some (Val JsonApiUserProcessor) →
  options ≫= userEncryptPasswordCallback = None →
  ∃ cls,
    createUserProcessor (constructor options) = Returns cls
    ∧ ∀ this op w,
        invoke cls "encryptPassword" this [op] w
        = default_userEncryptPasswordCallback this [op] w
        ∧ snd (invoke cls "encryptPassword" this [op] w)
          = (w ++ [encryptPassword_warning])%list
        ∧ fst (invoke cls "encryptPassword" this [op] w) ≠ Returns (VObj [])
        ∧ ∀ fields dfields afields,
            op = VObj fields →
            assoc "data" fields = Some (VObj dfields) →
            assoc "attributes" dfields = Some (VObj afields) →
            fst (invoke cls "encryptPassword" this [op] w)
            = Returns (VObj [("password", default VUndefined (assoc "password" afields))]).
Proof.
  intros Hup Hcb.
  destruct (createUserProcessor_methods _ _ (read_key_Some _ _ Hup)) as (cls & Hcls & _ & Henc).
  exists cls. split; [exact Hcls |]. intros this op w.
  rewrite Henc. cbn [is_JsonApiUserProcessor].
  rewrite constructor_userEncryptPasswordCallback, Hcb.
  change (arg 0 [op]) with op. unfold held, read_key. cbn [default id value_of call].
  destruct (default_userEncryptPasswordCallback_outcome this op w) as [Hsnd Hfst].
  split; [reflexivity | split; [| split]].
  - exact Hsnd.
  - destruct Hfst as [-> | [pw ->]]; discriminate.
  - intros fields dfields afields -> Hdata Hattrs.
    rewrite (default_userEncryptPasswordCallback_plaintext _ _ _ _ _ Hdata Hattrs).
    reflexivity.
Qed.

(** C2: when [userProcessor] is a custom class (not the built-in one) that
    implements [generateId] and [encryptPassword], the composed processor's
    two methods are the custom class's own, run with the composed
    processor's [this]; whatever callbacks the options carry play no part. *)
Theorem custom_processor_methods_are_borrowed (options : UserManagementAddonOptions)
    (custom : ProcessorClass) (generateId encryptPassword : jsfun) :
  userProcessor options = Some (Val custom) →
  is_JsonApiUserProcessor custom = false →
  prototype custom "generateId" = Some (Method generateId) →
  prototype custom "encryptPassword" = Some (Method encryptPassword) →
  ∃ cls,
    createUserProcessor (constructor (Some options)) = Returns cls
    ∧ (∀ this, invoke cls "generateId" this [] = generateId this [])
    ∧ (∀ this op, invoke cls "encryptPassword" this [op] = encryptPassword this [op])
    ∧ (∀ this args, invoke cls "generateId" this args = generateId this [])
    ∧ (∀ this args,
         invoke cls "encryptPassword" this args = encryptPassword this [arg 0 args]).
Proof.
  intros Hup Hcustom Hgen Henc.
  assert (Hmerged : read_key (userProcessor (constructor (Some options))) = Val custom).
  { rewrite constructor_userProcessor. cbn. rewrite Hup. reflexivity. }
  destruct (createUserProcessor_methods _ _ Hmerged) as (cls & Hcls & Hg & He).
  rewrite Hcustom, Hgen in Hg. rewrite Hcustom, Henc in He.
  exists cls. split; [exact Hcls |].
  split; [| split; [| split]]; intros; first [apply Hg | apply He].
Qed.

Lemma install_after_composition options app cls :
  createUserProcessor options = Returns cls →
  install options app =
  (Returns (),
   push_processors cls (createSessionProcessor options (createSessionResource options))
     (push_types (read_key (userResource options)) (Val (createSessionResource options))
        (set_service "permissions" (read_key (userPermissionsProvider options))
           (set_service "roles" (read_key (userRolesProvider options)) app)))).
Proof. intros Hcls. unfold install. rewrite Hcls. reflexivity. Qed.

(** C7: when the custom processor class lacks [generateId] or
    [encryptPassword], composition and installation still succeed, and the
    missing operation fails only when it is invoked on the composed
    processor: the call rejects with a TypeError. *)
Theorem missing_method_fails_at_call_time (options : UserManagementAddonOptions)
    (custom : ProcessorClass) (k : string) :
  userProcessor options = Some (Val custom) →
  is_JsonApiUserProcessor custom = false →
  k = "generateId" ∨ k = "encryptPassword" →
  prototype custom k = None →
  ∃ cls,
    createUserProcessor (constructor (Some options)) = Returns cls
    ∧ (∀ app, fst (install (constructor (Some options)) app) = Returns ())
    ∧ ∀ this args w, invoke cls k this args w = (Throws TypeError, w).
Proof.
  intros Hup Hcustom Hk Hmissing.
  assert (Hmerged : read_key (userProcessor (constructor (Some options))) = Val custom).
  { rewrite constructor_userProcessor. cbn. rewrite Hup. reflexivity. }
  destruct (createUserProcessor_methods _ _ Hmerged) as (cls & Hcls & Hg & He).
  rewrite Hcustom in Hg, He.
  exists cls. split; [exact Hcls | split].
  - intros app. rewrite (install_after_composition _ _ _ Hcls). reflexivity.
  - intros this args w. destruct Hk as [-> | ->].
    + rewrite Hg, Hmissing. reflexivity.
    + rewrite He, Hmissing. reflexivity.
Qed.

(** ** The composed session processor *)

Lemma createSessionProcessor_login options session this args :
  invoke (createSessionProcessor options session) "login" this args
  = call (held (userLoginCallback options)) ThisOptions [arg 0 args; arg 1 args].
Proof.
  unfold invoke, createSessionProcessor.
  rewrite prototype_ClassDecl by discriminate.
  rewrite lookup_singleton_eq. reflexivity.
Qed.

(** C3 (as amended): [login(op, attrs)] on the composed session processor is
    one application of the configured login-verification callback to [op]
    and [attrs] as received (the same console effects and the same
    completion, nothing before and nothing after) whenever that callback is
    a function: the default one when the key was omitted, the deployer's when
    a function was supplied.  When the key was supplied as [undefined] or
    [null], [login] rejects with a TypeError and calls nothing. *)
Theorem login_delegates_to_callback (options : option UserManagementAddonOptions)
    (session : ResourceClass) (this : receiver) (op attrs : jsval) :
  invoke (createSessionProcessor (constructor options) session) "login" this [op; attrs]
  = match options ≫= userLoginCallback with
    | None => default_userLoginCallback ThisOptions [op; attrs]
    | Some (Val callback) => callback ThisOptions [op; attrs]
    | Some Undefined | Some Null => throw TypeError
    end.
Proof.
  rewrite createSessionProcessor_login, constructor_userLoginCallback.
  destruct (options ≫= userLoginCallback) as [[| |callback]|]; reflexivity.
Qed.

Lemma repeat_call_warns (f : M jsval) (line : string) (v : jsval) :
  (∀ w, f w = (Returns v, (w ++ [line])%list)) →
  ∀ n w, repeat_call f n w = (Returns (), (w ++ replicate n line)%list).
Proof.
  intros Hf n. induction n as [|n IH]; intros w; cbn [repeat_call replicate].
  - unfold ret. rewrite app_nil_r. reflexivity.
  - unfold bind. rewrite Hf, IH, <- app_assoc. reflexivity.
Qed.

(** C4 (as amended): with the login callback left at its default, every
    [login] on the composed session processor fulfils with [true] and writes
    the unsafe-default warning once, so [n] logins write it [n] times. *)
Theorem default_login_permits_and_warns (options : option UserManagementAddonOptions)
    (session : ResourceClass) (this : receiver) (args : list jsval) (w : console) (n : nat) :
  options ≫= userLoginCallback = None →
  let login := invoke (createSessionProcessor (constructor options) session) "login" this args in
  login w = (Returns (VBool true), (w ++ [login_warning])%list)
  ∧ repeat_call login n w = (Returns (), (w ++ replicate n login_warning)%list).
Proof.
  intros Hcb login.
  assert (Hlogin : ∀ w', login w' = (Returns (VBool true), (w' ++ [login_warning])%list)).
  { intros w'. unfold login.
    rewrite createSessionProcessor_login, constructor_userLoginCallback, Hcb.
    reflexivity. }
  split; [apply Hlogin | exact (repeat_call_warns _ _ _ Hlogin n w)].
Qed.

(** ** The synthesized session resource *)

(** C6: with [usernameRequestParameter] set to ["email"] and
    [passwordRequestParameter] left at its default (omitted, so that the
    merged value is ["password"]), the session schema has an attribute
    ["email"] of string type and no attribute ["username"]. *)
Theorem session_schema_email (options : UserManagementAddonOptions) :
  usernameRequestParameter options = Some (Val "email") →
  passwordRequestParameter (constructor (Some options)) = Some (Val "password") →
  ∃ schema,
    schema_of (createSessionResource (constructor (Some options))) = Some schema
    ∧ attributes schema !! "email" = Some JsString
    ∧ attributes schema !! "username" = None.
Proof.
  intros Hu Hp. eexists. split; [reflexivity |].
  cbn [attributes].
  rewrite Hp, constructor_usernameRequestParameter.
  cbn [mbind option_bind]. rewrite Hu. unfold read_key. cbn [default property_key id].
  split.
  - rewrite lookup_insert_ne by discriminate. apply lookup_insert_eq.
  - rewrite !lookup_insert_ne by discriminate. apply lookup_empty.
Qed.

Lemma session_attributes_size (u p : string) (m : gmap string AttributeType) :
  m = <[p := Password]> (<[u := JsString]> (<["token" := JsString]> ∅)) →
  u = p ∨ u = "token" ∨ p = "token" →
  (size m < 3)%nat.
Proof.
  intros -> Hcollide.
  assert (Hle : ∀ (k : string) (x : AttributeType) (m' : gmap string AttributeType),
             (size (<[k := x]> m') ≤ S (size m'))%nat).
  { intros k x m'. rewrite map_size_insert. destruct (m' !! k); simpl; lia. }
  assert (Htoken : size (<["token" := JsString]> (∅ : gmap string AttributeType)) = 1).
  { rewrite insert_empty. apply map_size_singleton. }
  destruct Hcollide as [-> | [-> | ->]].
  - rewrite insert_insert_eq.
    pose proof (Hle p Password (<["token" := JsString]> ∅)) as H. lia.
  - rewrite (insert_insert_eq (M := gmap string)).
    pose proof (Hle p Password (<["token" := JsString]> ∅)) as H. lia.
  - pose proof (Hle u JsString (<["token" := JsString]> ∅)) as H.
    rewrite map_size_insert.
    destruct (decide (u = "token")) as [-> | Hne].
    + rewrite lookup_insert_eq. simpl. lia.
    + rewrite lookup_insert_ne, lookup_insert_eq by done. simpl. lia.
Qed.

(** ** Installation *)

Lemma createUserProcessor_constructed options up :
  userProcessor (constructor options) = Some (Val up) →
  ∃ cls, createUserProcessor (constructor options) = Returns cls.
Proof.
  intros Hup.
  destruct (createUserProcessor_methods _ _ (read_key_Some _ _ Hup)) as (cls & Hcls & _).
  exists cls. exact Hcls.
Qed.

Lemma createUserProcessor_nullish options :
  held (userProcessor options) = None →
  createUserProcessor options = Throws TypeError.
Proof.
  unfold held, createUserProcessor.
  destruct (read_key (userProcessor options)); [reflexivity | reflexivity | discriminate].
Qed.

(** C9: when the configured username and password parameter names coincide,
    or either is ["token"], the session schema is built without complaint but
    holds fewer than three attributes, the attribute listed later having
    replaced the earlier one under the shared key: the password parameter's
    key always ends up with the password type, and the username parameter's
    key, when it is not also the password's, with the string type.  The
    collision stops nothing: [install] returns whenever the merged
    [userProcessor] is a class. *)
Theorem colliding_parameters_shrink_schema (options : option UserManagementAddonOptions)
    (u p : string) :
  usernameRequestParameter (constructor options) = Some (Val u) →
  passwordRequestParameter (constructor options) = Some (Val p) →
  u = p ∨ u = "token" ∨ p = "token" →
  ∃ schema,
    schema_of (createSessionResource (constructor options)) = Some schema
    ∧ (size (attributes schema) < 3)%nat
    ∧ attributes schema !! p = Some Password
    ∧ (u ≠ p → attributes schema !! u = Some JsString)
    ∧ (p ≠ "token" → attributes schema !! "token" = Some JsString)
    ∧ ∀ up app,
        userProcessor (constructor options) = Some (Val up) →
        fst (install (constructor options) app) = Returns ().
Proof.
  intros Hu Hp Hcollide. eexists. split; [reflexivity |].
  cbn [attributes]. rewrite Hu, Hp. unfold read_key. cbn [property_key default id].
  split; [| split; [| split; [| split]]].
  - eapply session_attributes_size; [reflexivity | exact Hcollide].
  - apply lookup_insert_eq.
  - intros Hne. rewrite lookup_insert_ne by congruence. apply lookup_insert_eq.
  - intros Hne.
    rewrite lookup_insert_ne by congruence.
    destruct (decide (u = "token")) as [-> | Hne'].
    + apply lookup_insert_eq.
    + rewrite lookup_insert_ne by congruence. apply lookup_insert_eq.
  - intros up app Hup. destruct (createUserProcessor_constructed options up Hup) as [cls Hcls].
    rewrite (install_after_composition _ _ _ Hcls). reflexivity.
Qed.

(** C8 (as amended): for every configuration whose merged [userProcessor]
    is a class (the key omitted, or a class supplied), one run of [install]
    appends exactly two entity types to [app.types] (the configured user
    resource, then the synthesized session resource), appends exactly two
    processor types to [app.processors] (the composed user processor, then
    the composed session processor), and stores the configured providers
    under the service keys ["roles"] and ["permissions"]. *)
Theorem install_registers (options : option UserManagementAddonOptions) (app : Application)
    (up : ProcessorClass) :
  userProcessor (constructor options) = Some (Val up) →
  let merged := constructor options in
  let session := createSessionResource merged in
  ∃ userProcessorType app',
    createUserProcessor merged = Returns userProcessorType
    ∧ install merged app = (Returns (), app')
    ∧ types app' =
      (types app ++ [default (Val User) (options ≫= userResource); Val session])%list
    ∧ processors app' =
      (processors app ++ [userProcessorType; createSessionProcessor merged session])%list
    ∧ length (types app') = (length (types app) + 2)%nat
    ∧ length (processors app') = (length (processors app) + 2)%nat
    ∧ services app' !! "roles"
      = Some (default (Val default_provider) (options ≫= userRolesProvider))
    ∧ services app' !! "permissions"
      = Some (default (Val default_provider) (options ≫= userPermissionsProvider)).
Proof.
  intros Hup merged session.
  destruct (createUserProcessor_constructed options up Hup) as [cls Hcls].
  exists cls. eexists. split; [exact Hcls |].
  split; [apply (install_after_composition _ _ _ Hcls) |].
  cbn [types processors services push_processors push_types set_service].
  split; [| split; [| split; [| split; [| split]]]].
  - unfold merged. rewrite constructor_userResource. reflexivity.
  - reflexivity.
  - rewrite length_app. reflexivity.
  - rewrite length_app. reflexivity.
  - rewrite lookup_insert_ne by discriminate. rewrite lookup_insert_eq.
    unfold merged. clear. by_cases_on_supplied options.
  - rewrite lookup_insert_eq.
    unfold merged. clear. by_cases_on_supplied options.
Qed.


(** * Further properties of the code *)

(** ** The user processor on the built-in class *)

(** X1: With the built-in processor class and a supplied
    [userEncryptPasswordCallback], the composed [encryptPassword] is that
    callback, run with the composed processor's [this] on the first argument
    alone; the addon writes no warning of its own. *)
Theorem encryptPassword_uses_supplied_callback (options : UserManagementAddonOptions)
    (callback : jsfun) :
  userProcessor (constructor (Some options)) = Some (Val JsonApiUserProcessor) →
  userEncryptPasswordCallback options = Some (Val callback) →
  ∃ cls,
    createUserProcessor (constructor (Some options)) = Returns cls
    ∧ (∀ this op, invoke cls "encryptPassword" this [op] = callback this [op])
    ∧ (∀ this args, invoke cls "encryptPassword" this args = callback this [arg 0 args]).
Proof.
  intros Hup Hcb.
  destruct (createUserProcessor_methods _ _ (read_key_Some _ _ Hup)) as (cls & Hcls & _ & Henc).
  exists cls. split; [exact Hcls |].
  assert (Hall : ∀ this args,
            invoke cls "encryptPassword" this args = callback this [arg 0 args]).
  { intros this args. rewrite Henc. cbn [is_JsonApiUserProcessor].
    rewrite constructor_userEncryptPasswordCallback. cbn [mbind option_bind].
    rewrite Hcb. reflexivity. }
  split; [intros this op; apply Hall | exact Hall].
Qed.

(** X2: With the built-in processor class and no [userGenerateIdCallback],
    the composed [generateId] fulfils with [undefined] whatever it is called
    with, and writes nothing. *)
Theorem generateId_defaults_to_undefined (options : option UserManagementAddonOptions) :
  userProcessor (constructor options) = Some (Val JsonApiUserProcessor) →
  options ≫= userGenerateIdCallback = None →
  ∃ cls,
    createUserProcessor (constructor options) = Returns cls
    ∧ ∀ this args w, invoke cls "generateId" this args w = (Returns VUndefined, w).
Proof.
  intros Hup Hcb.
  destruct (createUserProcessor_methods _ _ (read_key_Some _ _ Hup)) as (cls & Hcls & Hgen & _).
  exists cls. split; [exact Hcls |]. intros this args w.
  rewrite Hgen. cbn [is_JsonApiUserProcessor].
  rewrite constructor_userGenerateIdCallback, Hcb. reflexivity.
Qed.

(** X3: With the built-in processor class and a supplied
    [userGenerateIdCallback], the composed [generateId] is that callback, run
    with the composed processor's [this] and no argument. *)
Theorem generateId_uses_supplied_callback (options : UserManagementAddonOptions)
    (callback : jsfun) :
  userProcessor (constructor (Some options)) = Some (Val JsonApiUserProcessor) →
  userGenerateIdCallback options = Some (Val callback) →
  ∃ cls,
    createUserProcessor (constructor (Some options)) = Returns cls
    ∧ ∀ this args, invoke cls "generateId" this args = callback this [].
Proof.
  intros Hup Hcb.
  destruct (createUserProcessor_methods _ _ (read_key_Some _ _ Hup)) as (cls & Hcls & Hgen & _).
  exists cls. split; [exact Hcls |]. intros this args.
  rewrite Hgen. cbn [is_JsonApiUserProcessor].
  rewrite constructor_userGenerateIdCallback. cbn [mbind option_bind].
  rewrite Hcb. reflexivity.
Qed.

(** ** The user processor on a subclass *)


(** X5: When the options hold a processor class, the composed user processor
    overrides [generateId] and [encryptPassword] only: apart from
    [constructor], which is the composed class itself, every other name
    resolves on its prototype as it does on the configured class's. *)
Theorem user_processor_inherits_other_methods (options : UserManagementAddonOptions)
    (up : ProcessorClass) (k : string) :
  userProcessor options = Some (Val up) →
  k ≠ "generateId" →
  k ≠ "encryptPassword" →
  k ≠ "constructor" →
  ∃ cls,
    createUserProcessor options = Returns cls
    ∧ prototype cls k = prototype up k
    ∧ prototype cls "constructor" = Some (Class cls).
Proof.
  intros Hup Hg He Hc. unfold createUserProcessor.
  rewrite (read_key_Some _ _ Hup).
  destruct (is_JsonApiUserProcessor up); (eexists; split; [reflexivity |]);
    (split; [| apply prototype_constructor]);
    rewrite prototype_ClassDecl by exact Hc;
    rewrite lookup_insert_ne by congruence; rewrite lookup_singleton_ne by congruence;
    reflexivity.
Qed.

(** ** The session processor *)

(** X6: The composed session processor overrides [login] only: apart from
    [constructor], which is the composed class itself, every other name
    resolves on its prototype as it does on the built-in session
    processor's. *)
Theorem session_processor_inherits_other_methods (options : UserManagementAddonOptions)
    (session : ResourceClass) (k : string) :
  k ≠ "login" →
  k ≠ "constructor" →
  prototype (createSessionProcessor options session) k = prototype JsonApiSessionProcessor k
  ∧ prototype (createSessionProcessor options session) "constructor"
    = Some (Class (createSessionProcessor options session)).
Proof.
  intros Hk Hc. split; [| apply prototype_constructor].
  unfold createSessionProcessor. rewrite prototype_ClassDecl by exact Hc.
  rewrite lookup_singleton_ne by congruence. reflexivity.
Qed.

(** X7: Whatever the options hold, [login] makes one call of their
    [userLoginCallback] with the options object as [this] and exactly its
    own first two arguments: further arguments are dropped and missing ones
    arrive as [undefined].  When [userLoginCallback] is [undefined] or [null]
    that call is a TypeError. *)
Theorem login_passes_two_arguments (options : UserManagementAddonOptions)
    (session : ResourceClass) (this : receiver) (op attrs : jsval) (rest : list jsval) :
  let callback := call (held (userLoginCallback options)) ThisOptions in
  let login := invoke (createSessionProcessor options session) "login" this in
  login (op :: attrs :: rest) = callback [op; attrs]
  ∧ login [op] = callback [op; VUndefined]
  ∧ login [] = callback [VUndefined; VUndefined].
Proof.
  intros callback login. unfold login.
  rewrite !createSessionProcessor_login.
  split; [reflexivity | split; reflexivity].
Qed.

(** ** The session resource *)


(** X9: For every configuration the synthesized resource has type
    ["session"] and a single relationship, ["user"]: a to-one reference whose
    type provider, once called, yields what the merged options hold under
    [userResource]: the built-in [User] when the key was omitted, and
    otherwise whatever was supplied, [undefined] and [null] included. *)
Theorem session_belongs_to_user (options : option UserManagementAddonOptions) :
  ∃ schema rel,
    createSessionResource (constructor options) = Synthesized "session" schema
    ∧ dom (relationships schema) = ({[ "user" ]} : gset string)
    ∧ relationships schema !! "user" = Some rel
    ∧ belongsTo rel = true
    ∧ rel_type rel () = default (Val User) (options ≫= userResource).
Proof.
  eexists. eexists. split; [reflexivity |]. cbn [relationships].
  split; [apply dom_singleton_L |].
  split; [apply lookup_singleton_eq |].
  cbn [belongsTo rel_type]. split; [reflexivity |].
  rewrite constructor_userResource. reflexivity.
Qed.

(** ** Installation *)

(** X10: When the merged [userProcessor] is a class, [install] registers
    each composed processor for the entity type it registers alongside: the
    user processor extends the configured processor class and its static
    [resourceClass] is the registered user resource, the session processor
    extends the built-in session processor and its static [resourceClass] is
    the registered session resource. *)
Theorem install_binds_processors_to_types (options : option UserManagementAddonOptions)
    (app : Application) (up : ProcessorClass) :
  userProcessor (constructor options) = Some (Val up) →
  ∃ app' userType sessionType userProcessorType sessionProcessorType,
    install (constructor options) app = (Returns (), app')
    ∧ createUserProcessor (constructor options) = Returns userProcessorType
    ∧ sessionProcessorType
      = createSessionProcessor (constructor options)
          (createSessionResource (constructor options))
    ∧ types app' = (types app ++ [userType; sessionType])%list
    ∧ processors app' = (processors app ++ [userProcessorType; sessionProcessorType])%list
    ∧ static_resourceClass userProcessorType = Some userType
    ∧ static_resourceClass sessionProcessorType = Some sessionType
    ∧ superclass userProcessorType = Some up
    ∧ superclass sessionProcessorType = Some JsonApiSessionProcessor.
Proof.
  intros Hup. unfold install, createUserProcessor.
  rewrite (read_key_Some _ _ Hup).
  destruct (is_JsonApiUserProcessor up);
    do 5 eexists; repeat (split; [reflexivity |]); reflexivity.
Qed.

(** X11: [install] is not idempotent.  When the merged [userProcessor] is a
    class, a second run on the same application succeeds as well and appends
    two more entity types and two more processors: nothing is deduplicated,
    the configured user resource is then registered twice, and the service
    registry stays as the first run set it. *)
Theorem install_twice_registers_twice (options : option UserManagementAddonOptions)
    (app : Application) (up : ProcessorClass) :
  userProcessor (constructor options) = Some (Val up) →
  let user := default (Val User) (options ≫= userResource) in
  ∃ app1 app2,
    install (constructor options) app = (Returns (), app1)
    ∧ install (constructor options) app1 = (Returns (), app2)
    ∧ length (types app2) = (length (types app) + 4)%nat
    ∧ length (processors app2) = (length (processors app) + 4)%nat
    ∧ types app2 !! length (types app) = Some user
    ∧ types app2 !! (length (types app) + 2)%nat = Some user
    ∧ services app2 = services app1.
Proof.
  intros Hup user.
  destruct (createUserProcessor_constructed options up Hup) as [cls Hcls].
  eexists. eexists.
  split; [apply (install_after_composition _ _ _ Hcls) |].
  split; [apply (install_after_composition _ _ _ Hcls) |].
  cbn [types processors services push_processors push_types set_service].
  rewrite constructor_userResource. cbn [read_key default id]. fold user.
  split; [rewrite !length_app; cbn [length]; lia |].
  split; [rewrite !length_app; cbn [length]; lia |].
  split.
  { rewrite <- app_assoc. rewrite lookup_app_r by lia.
    replace (length (types app) - length (types app))%nat with 0%nat by lia. reflexivity. }
  split.
  { rewrite <- app_assoc. rewrite lookup_app_r by lia.
    replace (length (types app) + 2 - length (types app))%nat with 2%nat by lia.
    reflexivity. }
  apply map_eq. intros k. rewrite !lookup_insert.
  repeat case_decide; reflexivity.
Qed.

(** X12: [install] touches no service other than ["roles"] and
    ["permissions"]. *)
Theorem install_keeps_other_services (options : UserManagementAddonOptions)
    (app : Application) (k : string) :
  k ≠ "roles" →
  k ≠ "permissions" →
  services (snd (install options app)) !! k = services app !! k.
Proof.
  intros Hroles Hpermissions. unfold install.
  destruct (createUserProcessor options);
    cbn [snd services push_processors push_types set_service];
    rewrite !lookup_insert_ne by congruence; reflexivity.
Qed.

(** X13: When the options [install] reads have no [userProcessor] (the key
    holds [undefined] or [null], or is absent), composing the user processor
    throws a TypeError and [install] rejects midway: the two services and the
    two entity types are already registered and stay so, and no processor is
    registered. *)
Theorem install_without_userProcessor_is_partial (options : UserManagementAddonOptions)
    (app : Application) :
  held (userProcessor options) = None →
  ∃ app',
    install options app = (Throws TypeError, app')
    ∧ processors app' = processors app
    ∧ types app' =
      (types app ++ [read_key (userResource options);
                     Val (createSessionResource options)])%list
    ∧ services app' !! "roles" = Some (read_key (userRolesProvider options))
    ∧ services app' !! "permissions" = Some (read_key (userPermissionsProvider options)).
Proof.
  intros Hnone. unfold install. rewrite (createUserProcessor_nullish _ Hnone).
  eexists. split; [reflexivity |].
  cbn [types processors services push_types set_service].
  split; [reflexivity | split; [reflexivity | split]].
  - rewrite lookup_insert_ne by discriminate. apply lookup_insert_eq.
  - apply lookup_insert_eq.
Qed.

(** ** Merging and the default callbacks *)

(** X14: Merging is idempotent: constructing from an options object that is
    already the result of a construction changes nothing, and constructing
    from no options or from the empty object gives the defaults. *)
Theorem constructor_idempotent (options : option UserManagementAddonOptions) :
  constructor (Some (constructor options)) = constructor options
  ∧ constructor None = defaults
  ∧ constructor (Some no_options) = defaults.
Proof.
  split; [| split; reflexivity].
  unfold constructor; destruct options as [[r p e l g ro pe un pw]|]; cbn;
    [destruct r, p, e, l, g, ro, pe, un, pw |]; reflexivity.
Qed.

(** X15: The default [userEncryptPasswordCallback] in closed form.  It always
    writes its warning first.  It rejects with a TypeError exactly when the
    operation, its [data] or the data's [attributes] is [undefined] or
    [null]; otherwise it fulfils with an object whose only key is
    ["password"], holding [op.data.attributes.password] ([undefined] when the
    attributes carry no password). *)
Theorem default_userEncryptPasswordCallback_closed_form (this : receiver)
    (args : list jsval) (w : console) :
  let op := arg 0 args in
  let data := read op "data" in
  let attrs := read data "attributes" in
  default_userEncryptPasswordCallback this args w
  = (if nullish op || nullish data || nullish attrs
     then Throws TypeError
     else Returns (VObj [("password", read attrs "password")]),
     (w ++ [encryptPassword_warning])%list).
Proof.
  intros op data attrs. unfold attrs, data.
  unfold default_userEncryptPasswordCallback, bind, console_warn.
  fold op. destruct op as [| | | | |fields]; cbn; try reflexivity.
  destruct (default VUndefined (assoc "data" fields)) as [| | | | |dfields]; cbn;
    try reflexivity.
  destruct (default VUndefined (assoc "attributes" dfields)) as [| | | | |afields]; cbn;
    reflexivity.
Qed.

End Addon.

(** * The properties at concrete configurations *)

(** The imported processor classes define no method of interest in these
    runs, except where a run says otherwise. *)

(** C1 as the specification words it fails: with no options at all the
    composed [encryptPassword] fulfils with the plaintext password under
    ["password"], not with the empty attribute set. *)
Lemma encryptPassword_default_not_empty :
  ∃ cls,
    createUserProcessor ∅ ∅ (constructor None) = Returns cls
    ∧ invoke ∅ ∅ cls "encryptPassword" sample_instance [sample_operation] []
      = (Returns (VObj [("password", VStr "secret")]), [encryptPassword_warning])
    ∧ fst (invoke ∅ ∅ cls "encryptPassword" sample_instance [sample_operation] [])
      ≠ Returns (VObj []).
Proof.
  eexists. split; [reflexivity |].
  split; [vm_compute; reflexivity | vm_compute; discriminate].
Qed.

Lemma encryptPassword_default_is_plaintext_witness :
  userProcessor (constructor None) = Some (Val JsonApiUserProcessor)
  ∧ (None : option UserManagementAddonOptions) ≫= userEncryptPasswordCallback = None
  ∧ ∃ cls,
      createUserProcessor ∅ ∅ (constructor None) = Returns cls
      ∧ fst (invoke ∅ ∅ cls "encryptPassword" sample_instance [sample_operation] [])
        = Returns (VObj [("password", VStr "secret")]).
Proof.
  split; [reflexivity | split; [reflexivity |]].
  destruct (encryptPassword_default_is_plaintext ∅ ∅ None eq_refl eq_refl)
    as (cls & Hcls & Hrun).
  exists cls. split; [exact Hcls |].
  destruct (Hrun sample_instance sample_operation []) as (_ & _ & _ & Hplain).
  exact (Hplain _ _ _ eq_refl eq_refl eq_refl).
Defined.

Lemma custom_processor_methods_are_borrowed_witness :
  userProcessor borrowing_options = Some (Val HashingUserProcessor)
  ∧ is_JsonApiUserProcessor HashingUserProcessor = false
  ∧ prototype ∅ ∅ HashingUserProcessor "generateId" = Some (Method uuid_generateId)
  ∧ prototype ∅ ∅ HashingUserProcessor "encryptPassword"
    = Some (Method hashing_encryptPassword)
  ∧ ∃ cls,
      createUserProcessor ∅ ∅ (constructor (Some borrowing_options)) = Returns cls
      ∧ (∀ this, invoke ∅ ∅ cls "generateId" this [] = uuid_generateId this [])
      ∧ (∀ this op,
           invoke ∅ ∅ cls "encryptPassword" this [op] = hashing_encryptPassword this [op]).
Proof.
  assert (Hgen : prototype ∅ ∅ HashingUserProcessor "generateId"
                 = Some (Method uuid_generateId))
    by (vm_compute; reflexivity).
  assert (Henc : prototype ∅ ∅ HashingUserProcessor "encryptPassword"
                 = Some (Method hashing_encryptPassword))
    by (vm_compute; reflexivity).
  split; [reflexivity | split; [reflexivity | split; [exact Hgen | split; [exact Henc |]]]].
  destruct (custom_processor_methods_are_borrowed ∅ ∅ borrowing_options HashingUserProcessor
              uuid_generateId hashing_encryptPassword eq_refl eq_refl Hgen Henc)
    as (cls & Hcls & Hg & He & _).
  exists cls. split; [exact Hcls | split; [exact Hg | exact He]].
Defined.

(** The custom class's methods win over the callbacks in a run: the supplied
    callbacks would give ["ignored"] and the empty set. *)
Example custom_processor_run :
  ∃ cls,
    createUserProcessor ∅ ∅ (constructor (Some borrowing_options)) = Returns cls
    ∧ invoke ∅ ∅ cls "generateId" sample_instance [] [] = (Returns (VStr "4f1c"), [])
    ∧ invoke ∅ ∅ cls "encryptPassword" sample_instance [sample_operation] []
      = (Returns (VObj [("password", VStr "hashed"); ("seen", sample_operation)]), []).
Proof.
  eexists. split; [reflexivity |]. split; vm_compute; reflexivity.
Qed.

(** One [login] with a recording callback: the callback ran once and saw
    [op] and [attrs] as they were passed. *)
Example login_with_recording_callback :
  invoke ∅ ∅
    (createSessionProcessor (constructor (Some recording_options)) User)
    "login" sample_instance [sample_operation; sample_attributes] []
  = (Returns (VArr [sample_operation; sample_attributes]), ["login callback called"]).
Proof. vm_compute. reflexivity. Qed.

(** C3 as the specification words it fails: a configuration that supplies
    [userLoginCallback] as [undefined] leaves that value in the merged
    options in place of the default, and [login] rejects with a TypeError
    without calling any callback (the default one would have written its
    warning). *)
Lemma login_rejects_when_callback_undefined :
  userLoginCallback (constructor (Some undefined_login_options)) = Some Undefined
  ∧ invoke ∅ ∅
      (createSessionProcessor (constructor (Some undefined_login_options)) User)
      "login" sample_instance [sample_operation; sample_attributes] []
    = (Throws TypeError, []).
Proof. split; [reflexivity | vm_compute; reflexivity]. Qed.

(** C4 as the specification words it fails: the warning is not written once
    per installation.  After one installation, no login leaves no warning on
    the console and two logins leave it there twice. *)
Lemma login_warning_not_once_per_installation :
  ∃ app' cls,
    install ∅ ∅ (constructor None) empty_application = (Returns (), app')
    ∧ processors app' !! 1 = Some cls
    ∧ occurrences login_warning
        (snd (repeat_call
                (invoke ∅ ∅ cls "login" sample_instance [sample_operation; sample_attributes])
                0 []))
      = 0
    ∧ occurrences login_warning
        (snd (repeat_call
                (invoke ∅ ∅ cls "login" sample_instance [sample_operation; sample_attributes])
                2 []))
      = 2.
Proof.
  eexists. eexists. split; [reflexivity |]. split; [reflexivity |].
  split; vm_compute; reflexivity.
Qed.

Lemma default_login_permits_and_warns_witness :
  (Some no_options) ≫= userLoginCallback = None
  ∧ invoke ∅ ∅ (createSessionProcessor (constructor (Some no_options)) User) "login"
      sample_instance [sample_operation; sample_attributes] []
    = (Returns (VBool true), [login_warning])
  ∧ repeat_call
      (invoke ∅ ∅ (createSessionProcessor (constructor (Some no_options)) User) "login"
         sample_instance [sample_operation; sample_attributes]) 3 []
    = (Returns (), [login_warning; login_warning; login_warning]).
Proof.
  split; [reflexivity |].
  exact (default_login_permits_and_warns ∅ ∅ (Some no_options) User sample_instance
           [sample_operation; sample_attributes] [] 3 eq_refl).
Defined.

(** C5 as the specification words it fails: [userLoginCallback] has a
    default, yet supplying the key as [undefined] leaves the merged field
    unset. *)
Lemma undefined_key_replaces_default :
  get_option K_userLoginCallback defaults
  = Some (Val (FunctionValue default_userLoginCallback))
  ∧ get_option K_userLoginCallback (constructor (Some undefined_login_options))
    = Some Undefined
  ∧ held (userLoginCallback (constructor (Some undefined_login_options))) = None.
Proof. split; [reflexivity | split; reflexivity]. Qed.

Lemma session_schema_email_witness :
  usernameRequestParameter email_options = Some (Val "email")
  ∧ passwordRequestParameter (constructor (Some email_options)) = Some (Val "password")
  ∧ ∃ schema,
      schema_of (createSessionResource (constructor (Some email_options))) = Some schema
      ∧ attributes schema !! "email" = Some JsString
      ∧ attributes schema !! "username" = None.
Proof.
  split; [reflexivity | split; [reflexivity |]].
  exact (session_schema_email email_options eq_refl eq_refl).
Defined.

Lemma missing_method_fails_at_call_time_witness :
  userProcessor bare_options = Some (Val BareProcessor)
  ∧ is_JsonApiUserProcessor BareProcessor = false
  ∧ ("generateId" = "generateId" ∨ "generateId" = "encryptPassword")
  ∧ prototype ∅ ∅ BareProcessor "generateId" = None
  ∧ ∃ cls,
      createUserProcessor ∅ ∅ (constructor (Some bare_options)) = Returns cls
      ∧ (∀ app, fst (install ∅ ∅ (constructor (Some bare_options)) app) = Returns ())
      ∧ ∀ this args w, invoke ∅ ∅ cls "generateId" this args w = (Throws TypeError, w).
Proof.
  split; [reflexivity | split; [reflexivity | split; [left; reflexivity | split]]].
  - vm_compute. reflexivity.
  - exact (missing_method_fails_at_call_time ∅ ∅ bare_options BareProcessor "generateId"
             eq_refl eq_refl (or_introl eq_refl) eq_refl).
Defined.

Lemma colliding_parameters_shrink_schema_witness :
  usernameRequestParameter (constructor (Some colliding_options)) = Some (Val "secret")
  ∧ passwordRequestParameter (constructor (Some colliding_options)) = Some (Val "secret")
  ∧ ("secret" = "secret" ∨ "secret" = "token" ∨ "secret" = "token")
  ∧ ∃ schema,
      schema_of (createSessionResource (constructor (Some colliding_options))) = Some schema
      ∧ (size (attributes schema) < 3)%nat
      ∧ attributes schema !! "secret" = Some Password
      ∧ fst (install ∅ ∅ (constructor (Some colliding_options)) empty_application)
        = Returns ().
Proof.
  split; [reflexivity | split; [reflexivity | split; [left; reflexivity |]]].
  destruct (colliding_parameters_shrink_schema ∅ ∅ (Some colliding_options) "secret" "secret"
              eq_refl eq_refl (or_introl eq_refl))
    as (schema & Hschema & Hsize & Hpassword & _ & _ & Hinstall).
  exists schema. split; [exact Hschema | split; [exact Hsize | split; [exact Hpassword |]]].
  exact (Hinstall JsonApiUserProcessor empty_application eq_refl).
Defined.

(** C8 as the specification words it fails: for the configuration that
    supplies [userProcessor] as [undefined], [install] rejects with a
    TypeError after it has registered the two entity types, and registers no
    processor. *)
Lemma install_rejects_undefined_userProcessor :
  ∃ app',
    install ∅ ∅ (constructor (Some undefined_processor_options)) empty_application
    = (Throws TypeError, app')
    ∧ length (types app') = 2
    ∧ processors app' = [].
Proof. eexists. split; [reflexivity | split; reflexivity]. Qed.

Lemma install_registers_witness :
  userProcessor (constructor None) = Some (Val JsonApiUserProcessor)
  ∧ ∃ userProcessorType app',
      createUserProcessor ∅ ∅ (constructor None) = Returns userProcessorType
      ∧ install ∅ ∅ (constructor None) busy_application = (Returns (), app')
      ∧ types app' =
        [Val (DeclaredResource "article"); Val User;
         Val (createSessionResource (constructor None))]
      ∧ length (processors app') = 3
      ∧ services app' !! "roles" = Some (Val default_provider).
Proof.
  split; [reflexivity |].
  destruct (install_registers ∅ ∅ None busy_application JsonApiUserProcessor eq_refl)
    as (cls & app' & Hcls & Hinstall & Htypes & _ & _ & Hlength & Hroles & _).
  exists cls, app'.
  split; [exact Hcls | split; [exact Hinstall | split; [exact Htypes |]]].
  split; [exact Hlength | exact Hroles].
Defined.



(** ** The further properties at concrete configurations *)

Lemma encryptPassword_uses_supplied_callback_witness :
  userProcessor (constructor (Some callback_options)) = Some (Val JsonApiUserProcessor)
  ∧ userEncryptPasswordCallback callback_options = Some (Val hashing_encryptPassword)
  ∧ ∃ cls,
      createUserProcessor ∅ ∅ (constructor (Some callback_options)) = Returns cls
      ∧ ∀ this op,
          invoke ∅ ∅ cls "encryptPassword" this [op] = hashing_encryptPassword this [op].
Proof.
  split; [reflexivity | split; [reflexivity |]].
  destruct (encryptPassword_uses_supplied_callback ∅ ∅ callback_options
              hashing_encryptPassword eq_refl eq_refl) as (cls & Hcls & Hop & _).
  exists cls. split; [exact Hcls | exact Hop].
Defined.

Lemma generateId_defaults_to_undefined_witness :
  userProcessor (constructor None) = Some (Val JsonApiUserProcessor)
  ∧ (None : option UserManagementAddonOptions) ≫= userGenerateIdCallback = None
  ∧ ∃ cls,
      createUserProcessor ∅ ∅ (constructor None) = Returns cls
      ∧ ∀ this args w, invoke ∅ ∅ cls "generateId" this args w = (Returns VUndefined, w).
Proof.
  split; [reflexivity | split; [reflexivity |]].
  exact (generateId_defaults_to_undefined ∅ ∅ None eq_refl eq_refl).
Defined.

Lemma generateId_uses_supplied_callback_witness :
  userProcessor (constructor (Some callback_options)) = Some (Val JsonApiUserProcessor)
  ∧ userGenerateIdCallback callback_options = Some (Val uuid_generateId)
  ∧ ∃ cls,
      createUserProcessor ∅ ∅ (constructor (Some callback_options)) = Returns cls
      ∧ ∀ this args, invoke ∅ ∅ cls "generateId" this args = uuid_generateId this [].
Proof.
  split; [reflexivity | split; [reflexivity |]].
  exact (generateId_uses_supplied_callback ∅ ∅ callback_options uuid_generateId
           eq_refl eq_refl).
Defined.


Lemma user_processor_inherits_other_methods_witness :
  userProcessor (constructor (Some audited_options)) = Some (Val AuditedUserProcessor)
  ∧ "audit" ≠ "generateId"
  ∧ "audit" ≠ "encryptPassword"
  ∧ "audit" ≠ "constructor"
  ∧ ∃ cls,
      createUserProcessor ∅ ∅ (constructor (Some audited_options)) = Returns cls
      ∧ prototype ∅ ∅ cls "audit" = Some (Method (constant_callback (VBool true)))
      ∧ prototype ∅ ∅ cls "constructor" = Some (Class cls).
Proof.
  assert (Hg : "audit" ≠ "generateId") by discriminate.
  assert (He : "audit" ≠ "encryptPassword") by discriminate.
  assert (Hc : "audit" ≠ "constructor") by discriminate.
  split; [reflexivity | split; [exact Hg | split; [exact He | split; [exact Hc |]]]].
  destruct (user_processor_inherits_other_methods ∅ ∅ (constructor (Some audited_options))
              AuditedUserProcessor "audit" eq_refl Hg He Hc)
    as (cls & Hcls & Hproto & Hctor).
  exists cls. split; [exact Hcls | split; [| exact Hctor]].
  rewrite Hproto. vm_compute. reflexivity.
Defined.

Lemma session_processor_inherits_other_methods_witness :
  "logout" ≠ "login"
  ∧ "logout" ≠ "constructor"
  ∧ prototype ∅ {[ "logout" := constant_callback (VBool true) ]}
      (createSessionProcessor (constructor None) User) "logout"
    = prototype ∅ {[ "logout" := constant_callback (VBool true) ]}
        JsonApiSessionProcessor "logout".
Proof.
  assert (Hk : "logout" ≠ "login") by discriminate.
  assert (Hc : "logout" ≠ "constructor") by discriminate.
  split; [exact Hk | split; [exact Hc |]].
  exact (proj1 (session_processor_inherits_other_methods ∅
                  {[ "logout" := constant_callback (VBool true) ]}
                  (constructor None) User "logout" Hk Hc)).
Defined.


Lemma install_binds_processors_to_types_witness :
  userProcessor (constructor (Some borrowing_options)) = Some (Val HashingUserProcessor)
  ∧ ∃ app' userProcessorType sessionProcessorType,
      install ∅ ∅ (constructor (Some borrowing_options)) empty_application
      = (Returns (), app')
      ∧ processors app' = [userProcessorType; sessionProcessorType]
      ∧ static_resourceClass userProcessorType = types app' !! 0
      ∧ static_resourceClass sessionProcessorType = types app' !! 1
      ∧ superclass userProcessorType = Some HashingUserProcessor.
Proof.
  split; [reflexivity |].
  destruct (install_binds_processors_to_types ∅ ∅ (Some borrowing_options)
              empty_application HashingUserProcessor eq_refl)
    as (app' & ut & st & u & s & Hinstall & _ & _ & Htypes & Hprocs & Hu & Hs & Hsuper & _).
  exists app', u, s.
  split; [exact Hinstall | split; [exact Hprocs |]].
  rewrite Htypes. split; [exact Hu | split; [exact Hs | exact Hsuper]].
Defined.

Lemma install_twice_registers_twice_witness :
  userProcessor (constructor None) = Some (Val JsonApiUserProcessor)
  ∧ ∃ app1 app2,
      install ∅ ∅ (constructor None) busy_application = (Returns (), app1)
      ∧ install ∅ ∅ (constructor None) app1 = (Returns (), app2)
      ∧ length (types app2) = 5
      ∧ length (processors app2) = 5
      ∧ types app2 !! 1 = Some (Val User)
      ∧ types app2 !! 3 = Some (Val User).
Proof.
  split; [reflexivity |].
  destruct (install_twice_registers_twice ∅ ∅ None busy_application JsonApiUserProcessor
              eq_refl)
    as (app1 & app2 & H1 & H2 & Htypes & Hprocs & Hfirst & Hsecond & _).
  exists app1, app2.
  split; [exact H1 | split; [exact H2 | split; [exact Htypes | split; [exact Hprocs |]]]].
  split; [exact Hfirst | exact Hsecond].
Defined.

Lemma install_keeps_other_services_witness :
  "mailer" ≠ "roles"
  ∧ "mailer" ≠ "permissions"
  ∧ services (snd (install ∅ ∅ (constructor None) busy_application)) !! "mailer"
    = services busy_application !! "mailer".
Proof.
  assert (Hr : "mailer" ≠ "roles") by discriminate.
  assert (Hp : "mailer" ≠ "permissions") by discriminate.
  split; [exact Hr | split; [exact Hp |]].
  exact (install_keeps_other_services ∅ ∅ (constructor None) busy_application "mailer" Hr Hp).
Defined.

Lemma install_without_userProcessor_is_partial_witness :
  held (userProcessor (constructor (Some undefined_processor_options))) = None
  ∧ ∃ app',
      install ∅ ∅ (constructor (Some undefined_processor_options)) busy_application
      = (Throws TypeError, app')
      ∧ processors app' = processors busy_application
      ∧ length (types app') = 3%nat
      ∧ services app' !! "roles" = Some (Val default_provider).
Proof.
  split; [reflexivity |].
  destruct (install_without_userProcessor_is_partial ∅ ∅
              (constructor (Some undefined_processor_options)) busy_application eq_refl)
    as (app' & Hinstall & Hprocessors & Htypes & Hroles & _).
  exists app'. split; [exact Hinstall | split; [exact Hprocessors | split]].
  - rewrite Htypes. reflexivity.
  - exact Hroles.
Defined.
